(** * A relay between JSON clients and the Telegram Bot API (app.py)

    Shallow embedding of [send_telegram_request] and of the three endpoint
    handlers [send_message], [send_photo] and [send_document], followed by the
    properties of the relay that the specification states.

    Python values are modelled by [value]; a handler is a computation in the
    monad [M], which carries the exception that may leave the function and
    the list of actions it performed (outbound posts, log lines, calls of the
    forwarder). *)

From Stdlib Require Import ZArith String DecimalString.
From Stdlib Require Import Floats.SpecFloat.
From stdpp Require Import gmap strings list fin_maps.

Local Set Warnings "-register-all".
Local Open Scope Z_scope.

(** ** Python values *)

(** What [request.json] and [response.json()] produce: [None], booleans,
    integers, floats, strings, lists and dicts with string keys. *)
Inductive value :=
  | JNull
  | JBool (b : bool)
  | JInt (z : Z)
  | JFloat (f : spec_float)
  | JStr (s : string)
  | JArr (l : list value)
  | JObj (m : gmap string value).

(** The truth value of [v], as tested by [if not v]. *)
Definition truthy (v : value) : bool :=
  match v with
  | JNull => false
  | JBool b => b
  | JInt z => negb (z =? 0)
  | JFloat (S754_zero _) => false
  | JFloat _ => true
  | JStr s => negb (String.eqb s EmptyString)
  | JArr l => match l with [] => false | _ => true end
  | JObj m => negb (bool_decide (m = ∅))
  end.

(** [type(v).__name__], as it appears in the interpreter's messages. *)
Definition type_name (v : value) : string :=
  match v with
  | JNull => "NoneType"
  | JBool _ => "bool"
  | JInt _ => "int"
  | JFloat _ => "float"
  | JStr _ => "str"
  | JArr _ => "list"
  | JObj _ => "dict"
  end.

(** [f"{z}"] for an integer. *)
Definition decimal (z : Z) : string := NilZero.string_of_int (Z.to_int z).

(** [needle in hay] on strings: [needle] occurs as a substring. *)
Fixpoint is_substring (needle hay : string) : bool :=
  String.prefix needle hay ||
  match hay with
  | EmptyString => false
  | String _ rest => is_substring needle rest
  end.

(** ['k' == v]: a string equals only an equal string. *)
Definition str_eq (k : string) (v : value) : bool :=
  match v with
  | JStr s => String.eqb k s
  | _ => false
  end.

(** ** Exceptions, actions and the monad *)

Inductive exn_class :=
  | RequestException        (* requests.exceptions.RequestException and subclasses *)
  | HTTPException (code : Z) (* werkzeug's, raised by the framework *)
  | TypeError
  | AttributeError
  | Exception.              (* Exception(...) itself, or any other subclass *)

(** An exception: its class, [str(e)], and for a requests exception the
    [status_code] and [text] of [e.response] when there is one. *)
Record exn := Exn {
  exn_class_of : exn_class;
  exn_str : string;
  exn_response : option (Z * string)
}.

Definition is_RequestException (e : exn) : bool :=
  match exn_class_of e with
  | RequestException => true
  | _ => false
  end.

Inductive outcome (A : Type) :=
  | Returns (a : A)
  | Raises (e : exn).
Arguments Returns {A} a.
Arguments Raises {A} e.

(** What a run does besides computing its result. [Forward] marks an entry
    into [send_telegram_request] with its three arguments. *)
Inductive event :=
  | Forward (method : string) (token : value) (params : gmap string value)
  | Post (url : string) (json : gmap string value) (timeout : Z)
  | LogError (msg : string).

Definition M (A : Type) : Type := outcome A * list event.

#[global] Instance M_ret : MRet M := λ A a, (Returns a, []).

#[global] Instance M_bind : MBind M := λ A B f m,
  match m with
  | (Returns a, t) => let '(r, t') := f a in (r, t ++ t')
  | (Raises e, t) => (Raises e, t)
  end.

Definition raise {A} (e : exn) : M A := (Raises e, []).

Definition emit (ev : event) : M unit := (Returns tt, [ev]).

(** An [outcome] computed elsewhere, brought into [M] with no action. *)
Definition lift {A} (o : outcome A) : M A := (o, []).

(** [try: body / except C as e: handler e], where [catches e] tells whether
    [e] is an instance of [C]. *)
Definition try_except {A} (body : M A) (catches : exn → bool)
    (handler : exn → M A) : M A :=
  match body with
  | (Raises e, t) =>
      if catches e then let '(r, t') := handler e in (r, t ++ t')
      else (Raises e, t)
  | (Returns a, t) => (Returns a, t)
  end.

Definition result {A} (m : M A) : outcome A := fst m.
Definition trace {A} (m : M A) : list event := snd m.

Definition logger_error (msg : string) : M unit := emit (LogError msg).

(** ** Operators on values that may raise *)

(** ['k' in data]. *)
Definition py_in (k : string) (data : value) : M bool :=
  match data with
  | JObj m => mret (bool_decide (is_Some (m !! k)))
  | JArr l => mret (existsb (str_eq k) l)
  | JStr s => mret (is_substring k s)
  | _ => raise (Exn TypeError
           ("argument of type '" +:+ type_name data +:+ "' is not iterable") None)
  end.

(** [data.pop(k, default)]: the value taken out and [data] afterwards. Only
    a dict has a two-argument [pop]. *)
Definition py_pop (k : string) (default : value) (data : value)
    : M (value * gmap string value) :=
  match data with
  | JObj m => mret (from_option id default (m !! k), delete k m)
  | JArr _ => raise (Exn TypeError "pop expected at most 1 argument, got 2" None)
  | _ => raise (Exn AttributeError
           ("'" +:+ type_name data +:+ "' object has no attribute 'pop'") None)
  end.

(** [jsonify({"error": msg})]. *)
Definition error_body (msg : string) : value := JObj {[ "error" := JStr msg ]}.

(** ** The provider's side: requests *)

(** A [requests.Response]: what [raise_for_status], [.text], [.status_code]
    and [.json()] read from it. [json] either yields the parsed body or
    raises. *)
Record Response := {
  status_code : Z;
  reason : string;
  response_url : string;
  text : string;
  json : outcome value
}.

(** [response.raise_for_status()]: "Raise exception for 4XX/5XX responses",
    an [HTTPError] that carries the response. *)
Definition raise_for_status (r : Response) : M unit :=
  if (400 <=? status_code r) && (status_code r <? 500) then
    raise (Exn RequestException
             (decimal (status_code r) +:+ " Client Error: " +:+ reason r
                +:+ " for url: " +:+ response_url r)
             (Some (status_code r, text r)))
  else if (500 <=? status_code r) && (status_code r <? 600) then
    raise (Exn RequestException
             (decimal (status_code r) +:+ " Server Error: " +:+ reason r
                +:+ " for url: " +:+ response_url r)
             (Some (status_code r, text r)))
  else mret tt.

(** The status codes for which [raise_for_status] raises. *)
Definition is_error_status (s : Z) : bool := (400 <=? s) && (s <? 600).

Definition no_credential_message : string :=
  "No bot token provided and TELEGRAM_BOT_TOKEN environment variable not set".

Inductive operation := SendMessage | SendPhoto | SendDocument.

Section App.

(** [str(v)] for the values whose rendering is not spelled out here
    (floats, lists and dicts). *)
Context (py_repr : value → string).

(** The network: what [requests.post(url, json=..., timeout=...)] gives. *)
Context (requests_post : string → gmap string value → Z → outcome Response).

(** [os.getenv('TELEGRAM_BOT_TOKEN')], read once at start. *)
Context (DEFAULT_BOT_TOKEN : option string).

(** [f"{token}"]. Rendering an integer is taken as total here; the
    interpreter refuses integers of several thousand digits, which no
    decoded request body contains. *)
Definition py_str (v : value) : string :=
  match v with
  | JStr s => s
  | JInt z => decimal z
  | JBool true => "True"
  | JBool false => "False"
  | JNull => "None"
  | _ => py_repr v
  end.

Definition api_url (token : value) (method : string) : string :=
  "https://api.telegram.org/bot" +:+ py_str token +:+ "/" +:+ method.

Definition post (url : string) (params : gmap string value) (timeout : Z)
    : M Response :=
  emit (Post url params timeout);; lift (requests_post url params timeout).

Definition default_token : value :=
  match DEFAULT_BOT_TOKEN with
  | Some s => JStr s
  | None => JNull
  end.

(** *** send_telegram_request *)

Definition send_telegram_request (method : string) (token : value)
    (params : gmap string value) : M value :=
  emit (Forward method token params);;
  let url := api_url token method in
  try_except
    (response ← post url params 10;
     raise_for_status response;;
     lift (json response))
    is_RequestException
    (λ e,
       logger_error ("Telegram API request failed: " +:+ exn_str e);;
       match exn_response e with
       | Some (status_code, error_detail) =>
           raise (Exn Exception
                    ("Telegram API error (" +:+ decimal status_code +:+ "): "
                       +:+ error_detail) None)
       | None =>
           raise (Exn Exception
                    ("Request to Telegram API failed: " +:+ exn_str e) None)
       end).

(** *** The endpoints *)

Definition health_check : M (value * Z) :=
  mret (JObj {[ "status" := JStr "ok" ]}, 200).

Definition send_message (request_json : outcome value) : M (value * Z) :=
  data ← lift request_json;
  if negb (truthy data) then mret (error_body "No data provided", 400) else
  has_chat_id ← py_in "chat_id" data;
  if negb has_chat_id then
    mret (error_body "Missing required field: chat_id", 400) else
  has_text ← py_in "text" data;
  if negb has_text then
    mret (error_body "Missing required field: text", 400) else
  '(bot_token, data) ← py_pop "bot_token" default_token data;
  if negb (truthy bot_token) then
    mret (error_body no_credential_message, 400) else
  try_except
    (response ← send_telegram_request "sendMessage" bot_token data;
     mret (response, 200))
    (λ _, true)
    (λ e,
       logger_error ("Error sending message: " +:+ exn_str e);;
       mret (error_body (exn_str e), 500)).

Definition send_photo (request_json : outcome value) : M (value * Z) :=
  data ← lift request_json;
  if negb (truthy data) then mret (error_body "No data provided", 400) else
  has_chat_id ← py_in "chat_id" data;
  if negb has_chat_id then
    mret (error_body "Missing required field: chat_id", 400) else
  has_photo ← py_in "photo" data;
  if negb has_photo then
    mret (error_body "Missing required field: photo", 400) else
  '(bot_token, data) ← py_pop "bot_token" default_token data;
  if negb (truthy bot_token) then
    mret (error_body no_credential_message, 400) else
  try_except
    (response ← send_telegram_request "sendPhoto" bot_token data;
     mret (response, 200))
    (λ _, true)
    (λ e,
       logger_error ("Error sending photo: " +:+ exn_str e);;
       mret (error_body (exn_str e), 500)).

Definition send_document (request_json : outcome value) : M (value * Z) :=
  data ← lift request_json;
  if negb (truthy data) then mret (error_body "No data provided", 400) else
  has_chat_id ← py_in "chat_id" data;
  if negb has_chat_id then
    mret (error_body "Missing required field: chat_id", 400) else
  has_document ← py_in "document" data;
  if negb has_document then
    mret (error_body "Missing required field: document", 400) else
  '(bot_token, data) ← py_pop "bot_token" default_token data;
  if negb (truthy bot_token) then
    mret (error_body no_credential_message, 400) else
  try_except
    (response ← send_telegram_request "sendDocument" bot_token data;
     mret (response, 200))
    (λ _, true)
    (λ e,
       logger_error ("Error sending document: " +:+ exn_str e);;
       mret (error_body (exn_str e), 500)).

Definition not_found : M (value * Z) :=
  mret (error_body "Endpoint not found", 404).

Definition server_error (e : exn) : M (value * Z) :=
  logger_error ("Server error: " +:+ exn_str e);;
  mret (error_body "Internal server error", 500).

(** *** The three send operations as one family *)

(** The route table: which function serves which operation. *)
Definition handle (op : operation) : outcome value → M (value * Z) :=
  match op with
  | SendMessage => send_message
  | SendPhoto => send_photo
  | SendDocument => send_document
  end.

End App.

(** ** The operations as the specification tabulates them *)

(** Provider method of each operation. *)
Definition method_of (op : operation) : string :=
  match op with
  | SendMessage => "sendMessage"
  | SendPhoto => "sendPhoto"
  | SendDocument => "sendDocument"
  end.

(** Required fields of each operation, in check order. *)
Definition required_fields (op : operation) : list string :=
  match op with
  | SendMessage => ["chat_id"; "text"]
  | SendPhoto => ["chat_id"; "photo"]
  | SendDocument => ["chat_id"; "document"]
  end.

(** What each handler calls the thing it sends in its log line. *)
Definition noun (op : operation) : string :=
  match op with
  | SendMessage => "message"
  | SendPhoto => "photo"
  | SendDocument => "document"
  end.

(** The first field of [fields] that the body [d] lacks. *)
Fixpoint first_missing (fields : list string) (d : gmap string value)
    : option string :=
  match fields with
  | [] => None
  | f :: rest =>
      if bool_decide (is_Some (d !! f)) then first_missing rest d else Some f
  end.

(** The credential of a request: the body's [bot_token] when the key is
    there, else the process-wide default. *)
Definition resolve_credential (default : option string)
    (d : gmap string value) : value :=
  from_option id (default_token default) (d !! "bot_token").

(** The body [d] passes the checks of [op] and resolves to the usable
    credential [tok]. *)
Definition dispatches (default : option string) (op : operation)
    (d : gmap string value) (tok : value) : Prop :=
  first_missing (required_fields op) d = None ∧
  resolve_credential default d = tok ∧
  truthy tok = true.

(** The last step of every handler: the [try]/[except Exception] around the
    call of the forwarder. *)
Definition relay (what : string) (call : M value) : M (value * Z) :=
  try_except
    (response ← call; mret (response, 200))
    (λ _, true)
    (λ e,
       logger_error ("Error sending " +:+ what +:+ ": " +:+ exn_str e);;
       mret (error_body (exn_str e), 500)).

Definition is_post (ev : event) : bool :=
  match ev with
  | Post _ _ _ => true
  | _ => false
  end.

Definition is_forward (ev : event) : bool :=
  match ev with
  | Forward _ _ _ => true
  | _ => false
  end.

(** ** Vocabulary for the properties of the code beyond the specification *)

Definition is_object (v : value) : bool :=
  match v with
  | JObj _ => true
  | _ => false
  end.

(** The statuses HTTP calls successful, 200 to 299. *)
Definition is_success_status (s : Z) : bool := (200 <=? s) && (s <? 300).

Definition is_log (ev : event) : bool :=
  match ev with
  | LogError _ => true
  | _ => false
  end.

(** ** Sample requests and provider behaviours *)

Module Sample.

Definition repr (_ : value) : string := EmptyString.

Definition hello : gmap string value :=
  {[ "chat_id" := JInt 42; "text" := JStr "hi"; "bot_token" := JStr "123:ABC" ]}.

Definition hello_no_token : gmap string value :=
  {[ "chat_id" := JInt 42; "text" := JStr "hi" ]}.

Definition hello_empty_token : gmap string value :=
  {[ "chat_id" := JInt 42; "text" := JStr "hi"; "bot_token" := JStr EmptyString ]}.

Definition hello_numeric_token : gmap string value :=
  {[ "chat_id" := JInt 42; "text" := JStr "hi"; "bot_token" := JInt 123 ]}.

Definition only_text : gmap string value := {[ "text" := JStr "hi" ]}.

Definition unrelated : gmap string value := {[ "caption" := JStr "hi" ]}.

(** A body that the framework could not decode: [request.json] raises. *)
Definition bad_request : exn :=
  Exn (HTTPException 400)
      "400 Bad Request: The browser (or proxy) sent a request that this server could not understand."
      None.

Definition timed_out : exn :=
  Exn RequestException
      "HTTPSConnectionPool(host='api.telegram.org', port=443): Read timed out. (read timeout=10)"
      None.

Definition not_json : exn :=
  Exn RequestException "Expecting value: line 1 column 1 (char 0)" None.

Definition sent : value :=
  JObj {[ "ok" := JBool true; "result" := JObj {[ "message_id" := JInt 7 ]} ]}.

Definition reply_ok : Response :=
  {| status_code := 200; reason := "OK";
     response_url := "https://api.telegram.org/bot123:ABC/sendMessage";
     text := "{'ok': true, 'result': {'message_id': 7}}";
     json := Returns sent |}.

Definition reply_chat_not_found : Response :=
  {| status_code := 400; reason := "Bad Request";
     response_url := "https://api.telegram.org/bot123:ABC/sendMessage";
     text := "Bad Request: chat not found";
     json := Raises not_json |}.

Definition reply_html : Response :=
  {| status_code := 200; reason := "OK";
     response_url := "https://api.telegram.org/bot123:ABC/sendMessage";
     text := "<html></html>";
     json := Raises not_json |}.

Definition reply_not_modified : Response :=
  {| status_code := 304; reason := "Not Modified";
     response_url := "https://api.telegram.org/bot123:ABC/sendMessage";
     text := "{'ok': true, 'result': {'message_id': 7}}";
     json := Returns sent |}.

(** What requests raises when the provider keeps redirecting: the exception
    carries the last response. *)
Definition redirect_loop : exn :=
  Exn RequestException "Exceeded 30 redirects." (Some (302, "Found")).

Definition net_redirect_loop (_ : string) (_ : gmap string value) (_ : Z)
    : outcome Response := Raises redirect_loop.

(** A parse failure that is not a requests exception: the [ValueError] of
    the json module. *)
Definition value_error : exn :=
  Exn Exception "Expecting value: line 1 column 1 (char 0)" None.

Definition reply_html_foreign : Response :=
  {| status_code := 200; reason := "OK";
     response_url := "https://api.telegram.org/bot123:ABC/sendMessage";
     text := "<html></html>";
     json := Raises value_error |}.

Definition reply_multiple_choices : Response :=
  {| status_code := 300; reason := "Multiple Choices";
     response_url := "https://api.telegram.org/bot123:ABC/sendMessage";
     text := "[1, 2]";
     json := Returns (JArr [JInt 1; JInt 2]) |}.

(** The same JSON value sent as two different byte sequences. *)
Definition reply_list_spaced : Response :=
  {| status_code := 200; reason := "OK";
     response_url := "https://api.telegram.org/bot123:ABC/sendMessage";
     text := "[1, 2]";
     json := Returns (JArr [JInt 1; JInt 2]) |}.

Definition reply_list_compact : Response :=
  {| status_code := 200; reason := "OK";
     response_url := "https://api.telegram.org/bot123:ABC/sendMessage";
     text := "[1,2]";
     json := Returns (JArr [JInt 1; JInt 2]) |}.

Definition hello_html : gmap string value :=
  {[ "chat_id" := JInt 42; "text" := JStr "<b>hi</b>";
     "parse_mode" := JStr "HTML" ]}.

Definition net_down (_ : string) (_ : gmap string value) (_ : Z)
    : outcome Response := Raises timed_out.

Definition net_reply (r : Response) (_ : string) (_ : gmap string value)
    (_ : Z) : outcome Response := Returns r.

End Sample.

(** ** The monad's equations *)

Lemma bind_mret {A B} (a : A) (f : A → M B) : (mret a ≫= f) = f a.
Proof. unfold mret, mbind, M_ret, M_bind. by destruct (f a). Qed.

Lemma bind_lift_returns {A B} (a : A) (f : A → M B) :
  (lift (Returns a) ≫= f) = f a.
Proof. apply bind_mret. Qed.

Lemma bind_lift_raises {A B} (e : exn) (f : A → M B) :
  (lift (Raises e) ≫= f) = raise e.
Proof. reflexivity. Qed.

Lemma bind_raise {A B} (e : exn) (f : A → M B) : (raise e ≫= f) = raise e.
Proof. reflexivity. Qed.

Lemma bind_emit {B} (ev : event) (k : M B) :
  (emit ev ;; k) = (result k, ev :: trace k).
Proof. unfold mbind, M_bind, emit. by destruct k. Qed.

(** Runs the checks of a handler on a body whose shape is known, splitting on
    every test that is left. *)
Ltac run_checks :=
  cbn in *; unfold py_in, py_pop, mret, mbind, M_ret, M_bind, raise, lift;
  cbn; try done;
  repeat (case_match; simplify_eq; cbn in *; try done).

Section Properties.

Context (py_repr : value → string).
Context (requests_post : string → gmap string value → Z → outcome Response).
Context (DEFAULT_BOT_TOKEN : option string).

Local Abbreviation handle := (handle py_repr requests_post DEFAULT_BOT_TOKEN).
Local Abbreviation send_telegram_request :=
  (send_telegram_request py_repr requests_post).
Local Abbreviation api_url := (api_url py_repr).

Lemma truthy_dict (d : gmap string value) (k : string) :
  is_Some (d !! k) → truthy (JObj d) = true.
Proof.
  intros [v Hv]. cbn. rewrite bool_decide_eq_false_2; [done|].
  intros ->. by rewrite lookup_empty in Hv.
Qed.

Lemma first_missing_None (op : operation) (d : gmap string value) :
  first_missing (required_fields op) d = None →
  ∃ second, required_fields op = ["chat_id"; second] ∧
    is_Some (d !! "chat_id") ∧ is_Some (d !! second).
Proof.
  destruct op; cbn; repeat case_bool_decide; try discriminate; eauto.
Qed.

(** Every handler is its checks followed by [relay] around the forwarder. *)
Lemma handle_dispatches (op : operation) (d : gmap string value) (tok : value) :
  dispatches DEFAULT_BOT_TOKEN op d tok →
  handle op (Returns (JObj d)) =
    relay (noun op) (send_telegram_request (method_of op) tok (delete "bot_token" d)).
Proof.
  intros (Hreq & Htok & Htruthy).
  destruct (first_missing_None _ _ Hreq) as (second & Hfields & Hchat & Hsecond).
  unfold resolve_credential in Htok.
  destruct op; cbn in Hfields; simplify_eq;
    unfold handle, send_message, send_photo, send_document;
    rewrite bind_lift_returns, (truthy_dict _ _ Hchat); cbn [negb];
    unfold py_in; rewrite bind_mret, (bool_decide_eq_true_2 _ Hchat); cbn [negb];
    rewrite bind_mret, (bool_decide_eq_true_2 _ Hsecond); cbn [negb];
    unfold py_pop; rewrite bind_mret, Htruthy; reflexivity.
Qed.

(** *** The last step *)

Lemma relay_returns (what : string) (call : M value) (R : value)
    (t : list event) :
  call = (Returns R, t) → relay what call = (Returns (R, 200), t).
Proof. intros ->. unfold relay. cbn. by rewrite app_nil_r. Qed.

Lemma relay_raises (what : string) (call : M value) (e : exn)
    (t : list event) :
  call = (Raises e, t) →
  relay what call =
    (Returns (error_body (exn_str e), 500),
     t ++ [LogError ("Error sending " +:+ what +:+ ": " +:+ exn_str e)]).
Proof. intros ->. reflexivity. Qed.

(** *** The forwarder, one lemma per behaviour of the network *)

Lemma raise_for_status_ok (r : Response) :
  is_error_status (status_code r) = false → raise_for_status r = mret tt.
Proof.
  unfold is_error_status, raise_for_status. intros H.
  destruct (400 <=? status_code r) eqn:Hlo, (status_code r <? 500) eqn:Hmid,
    (500 <=? status_code r) eqn:H5, (status_code r <? 600) eqn:Hhi;
    cbn in *; try done; lia.
Qed.

Lemma raise_for_status_error (r : Response) :
  is_error_status (status_code r) = true →
  ∃ line, raise_for_status r =
    raise (Exn RequestException line (Some (status_code r, text r))).
Proof.
  unfold is_error_status, raise_for_status. intros H.
  destruct (400 <=? status_code r) eqn:Hlo, (status_code r <? 500) eqn:Hmid,
    (500 <=? status_code r) eqn:H5, (status_code r <? 600) eqn:Hhi;
    cbn in *; try done; try lia; eauto.
Qed.

Lemma forward_success (method : string) (tok : value)
    (params : gmap string value) (r : Response) (R : value) :
  requests_post (api_url tok method) params 10 = Returns r →
  is_error_status (status_code r) = false →
  json r = Returns R →
  send_telegram_request method tok params =
    (Returns R, [Forward method tok params; Post (api_url tok method) params 10]).
Proof.
  intros Hpost Hstatus Hjson. unfold send_telegram_request, post.
  rewrite Hpost. cbn -[raise_for_status].
  rewrite (raise_for_status_ok _ Hstatus), Hjson. reflexivity.
Qed.

Lemma forward_http_error (method : string) (tok : value)
    (params : gmap string value) (r : Response) :
  requests_post (api_url tok method) params 10 = Returns r →
  is_error_status (status_code r) = true →
  ∃ line, send_telegram_request method tok params =
    (Raises (Exn Exception
               ("Telegram API error (" +:+ decimal (status_code r) +:+ "): "
                  +:+ text r) None),
     [Forward method tok params; Post (api_url tok method) params 10;
      LogError ("Telegram API request failed: " +:+ line)]).
Proof.
  intros Hpost Hstatus. unfold send_telegram_request, post.
  destruct (raise_for_status_error _ Hstatus) as [line Hline].
  exists line. rewrite Hpost. cbn -[raise_for_status String.append].
  rewrite Hline. reflexivity.
Qed.

Lemma forward_transport_failure (method : string) (tok : value)
    (params : gmap string value) (e : exn) :
  requests_post (api_url tok method) params 10 = Raises e →
  is_RequestException e = true →
  exn_response e = None →
  send_telegram_request method tok params =
    (Raises (Exn Exception
               ("Request to Telegram API failed: " +:+ exn_str e) None),
     [Forward method tok params; Post (api_url tok method) params 10;
      LogError ("Telegram API request failed: " +:+ exn_str e)]).
Proof.
  intros Hpost Hclass Hresp. unfold send_telegram_request, post.
  rewrite Hpost. cbn. rewrite Hclass. cbn. rewrite Hresp. reflexivity.
Qed.

Lemma forward_json_failure (method : string) (tok : value)
    (params : gmap string value) (r : Response) (e : exn) :
  requests_post (api_url tok method) params 10 = Returns r →
  is_error_status (status_code r) = false →
  json r = Raises e →
  ∃ err logs, send_telegram_request method tok params =
      (Raises err,
       Forward method tok params :: Post (api_url tok method) params 10 :: logs)
    ∧ (is_RequestException e = false → err = e)
    ∧ (is_RequestException e = true → exn_response e = None →
       err = Exn Exception
               ("Request to Telegram API failed: " +:+ exn_str e) None).
Proof.
  intros Hpost Hstatus Hjson. unfold send_telegram_request, post.
  rewrite Hpost. cbn -[raise_for_status].
  rewrite (raise_for_status_ok _ Hstatus), Hjson. cbn.
  destruct (is_RequestException e) eqn:Hclass; cbn.
  - destruct (exn_response e) as [[code detail]|] eqn:Hresp; cbn;
      eexists _, _; (split; [reflexivity|]); split; done.
  - eexists _, _; (split; [reflexivity|]); split; done.
Qed.

(** Whatever the network does, one call of the forwarder is one post. *)
Lemma forward_trace (method : string) (tok : value)
    (params : gmap string value) :
  ∃ logs, trace (send_telegram_request method tok params) =
      Forward method tok params :: Post (api_url tok method) params 10 :: logs
    ∧ Forall (λ ev, is_forward ev = false ∧ is_post ev = false) logs.
Proof.
  unfold send_telegram_request, post.
  destruct (requests_post _ _ _) as [r|e]; cbn.
  - unfold raise_for_status.
    destruct (_ && _); [|destruct (_ && _); [|destruct (json r) as [R|e]]];
      cbn; try destruct (is_RequestException e); cbn;
      try destruct (exn_response e) as [[code detail]|]; cbn;
      eexists; (split; [reflexivity|]); repeat constructor.
  - destruct (is_RequestException e); cbn;
      try destruct (exn_response e) as [[code detail]|]; cbn;
      eexists; (split; [reflexivity|]); repeat constructor.
Qed.

Lemma relay_trace (what : string) (call : M value) :
  ∃ logs, trace (relay what call) = trace call ++ logs
    ∧ Forall (λ ev, is_forward ev = false ∧ is_post ev = false) logs.
Proof.
  destruct call as [[R|e] t]; cbn.
  - exists []. by rewrite app_nil_r.
  - eexists. split; [reflexivity|]. repeat constructor.
Qed.

(** A request either gets through the checks, or the handler stops with
    nothing done. *)
Lemma handle_cases (op : operation) (rq : outcome value) :
  (∃ d tok, rq = Returns (JObj d) ∧ dispatches DEFAULT_BOT_TOKEN op d tok)
  ∨ trace (handle op rq) = [].
Proof.
  destruct rq as [data|e]; [|right; destruct op; reflexivity].
  destruct data as [| b | z | f | s | l | d].
  1-6: right; destruct op; run_checks.
  destruct (first_missing (required_fields op) d) as [name|] eqn:Hreq.
  - right. destruct op; run_checks.
  - destruct (truthy (resolve_credential DEFAULT_BOT_TOKEN d)) eqn:Htok.
    + left. by exists d, (resolve_credential DEFAULT_BOT_TOKEN d).
    + right. unfold resolve_credential in Htok.
      destruct op; cbn in *; unfold py_pop, mret, mbind, M_ret, M_bind; cbn;
        rewrite Htok; run_checks.
Qed.

(** *** The handlers' early exits *)

Lemma undecodable_body_propagates (op : operation) (e : exn) :
  handle op (Raises e) = (Raises e, []).
Proof. by destruct op. Qed.

Lemma handle_no_credential (op : operation) (d : gmap string value) :
  first_missing (required_fields op) d = None →
  truthy (resolve_credential DEFAULT_BOT_TOKEN d) = false →
  handle op (Returns (JObj d)) =
    (Returns (error_body no_credential_message, 400), []).
Proof.
  intros Hreq Htok.
  destruct (first_missing_None _ _ Hreq) as (second & Hfields & Hchat & Hsecond).
  unfold resolve_credential in Htok.
  destruct op; cbn in Hfields; simplify_eq;
    unfold handle, send_message, send_photo, send_document;
    rewrite bind_lift_returns, (truthy_dict _ _ Hchat); cbn [negb];
    unfold py_in; rewrite bind_mret, (bool_decide_eq_true_2 _ Hchat); cbn [negb];
    rewrite bind_mret, (bool_decide_eq_true_2 _ Hsecond); cbn [negb];
    unfold py_pop; rewrite bind_mret, Htok; reflexivity.
Qed.

(** ** The properties of the specification *)

(** C1, amended: when the provider answers with a status from 400 to 599
    (those for which [raise_for_status] raises) and body text [B], every
    handler answers 500 with
    [{"error": "Telegram API error (<status>): <B>"}]. *)
Theorem provider_error_relayed (op : operation) (d : gmap string value)
    (tok : value) (r : Response) :
  dispatches DEFAULT_BOT_TOKEN op d tok →
  requests_post (api_url tok (method_of op)) (delete "bot_token" d) 10
    = Returns r →
  is_error_status (status_code r) = true →
  result (handle op (Returns (JObj d))) =
    Returns (error_body ("Telegram API error (" +:+ decimal (status_code r)
                           +:+ "): " +:+ text r), 500).
Proof.
  intros Hd Hpost Hstatus. rewrite (handle_dispatches _ _ _ Hd).
  destruct (forward_http_error _ _ _ _ Hpost Hstatus) as [line Hfwd].
  by rewrite (relay_raises _ _ _ _ Hfwd).
Qed.

(** What leaves the forwarder when [response.json()] raises [e]: the
    [except] clause rewraps a requests exception and lets any other pass. *)
Lemma forward_json_raises (method : string) (tok : value)
    (params : gmap string value) (r : Response) (e : exn) :
  requests_post (api_url tok method) params 10 = Returns r →
  is_error_status (status_code r) = false →
  json r = Raises e →
  ∃ logs, send_telegram_request method tok params =
    (Raises
       (if is_RequestException e then
          match exn_response e with
          | Some (code, detail) =>
              Exn Exception
                ("Telegram API error (" +:+ decimal code +:+ "): " +:+ detail)
                None
          | None =>
              Exn Exception
                ("Request to Telegram API failed: " +:+ exn_str e) None
          end
        else e),
     Forward method tok params :: Post (api_url tok method) params 10 :: logs).
Proof.
  intros Hpost Hstatus Hjson. unfold send_telegram_request, post.
  rewrite Hpost. cbn -[raise_for_status].
  rewrite (raise_for_status_ok _ Hstatus), Hjson. cbn.
  destruct (is_RequestException e); cbn;
    [destruct (exn_response e) as [[code detail]|]; cbn|];
    eexists; reflexivity.
Qed.

(** C2, amended: when the provider answers with a status that passes
    [raise_for_status] but [response.json()] raises [e], no exception leaves
    the handler. If [e] is a requests exception without a response, the
    forwarder raises the same wrapper as for a transport failure,
    [Exception("Request to Telegram API failed: " + str(e))], and the handler
    answers 500 with that message; if it carries a response, the wrapper
    names that response's status and text. If [e] is not a requests
    exception, it leaves the forwarder as it is, and the handler answers 500
    with [{"error": str(e)}]. *)
Theorem unparsable_reply_is_error (op : operation) (d : gmap string value)
    (tok : value) (r : Response) (e : exn) :
  dispatches DEFAULT_BOT_TOKEN op d tok →
  requests_post (api_url tok (method_of op)) (delete "bot_token" d) 10
    = Returns r →
  is_error_status (status_code r) = false →
  json r = Raises e →
  (is_RequestException e = true → exn_response e = None →
     result (send_telegram_request (method_of op) tok (delete "bot_token" d))
       = Raises (Exn Exception
                   ("Request to Telegram API failed: " +:+ exn_str e) None)
     ∧ result (handle op (Returns (JObj d)))
       = Returns (error_body
                    ("Request to Telegram API failed: " +:+ exn_str e), 500))
  ∧ (∀ code detail,
       is_RequestException e = true → exn_response e = Some (code, detail) →
       result (send_telegram_request (method_of op) tok (delete "bot_token" d))
         = Raises (Exn Exception
                     ("Telegram API error (" +:+ decimal code +:+ "): "
                        +:+ detail) None)
       ∧ result (handle op (Returns (JObj d)))
         = Returns (error_body
                      ("Telegram API error (" +:+ decimal code +:+ "): "
                         +:+ detail), 500))
  ∧ (is_RequestException e = false →
     result (send_telegram_request (method_of op) tok (delete "bot_token" d))
       = Raises e
     ∧ result (handle op (Returns (JObj d)))
       = Returns (error_body (exn_str e), 500)).
Proof.
  intros Hd Hpost Hstatus Hjson. rewrite (handle_dispatches _ _ _ Hd).
  destruct (forward_json_raises _ _ _ _ _ Hpost Hstatus Hjson) as [logs Hfwd].
  rewrite (relay_raises _ _ _ _ Hfwd), Hfwd. cbn [result fst].
  split; [|split].
  - intros Hclass Hresp. by rewrite Hclass, Hresp.
  - intros code detail Hclass Hresp. by rewrite Hclass, Hresp.
  - intros Hclass. by rewrite Hclass.
Qed.

(** C3: when the body carries [bot_token] and passes the checks, the
    forwarder is called once, with that value as credential and with the
    body less the [bot_token] key, every other field unchanged, as
    parameters; the same parameters are posted. *)
Theorem credential_removed_from_params (op : operation)
    (d : gmap string value) (tok : value) :
  first_missing (required_fields op) d = None →
  d !! "bot_token" = Some tok →
  truthy tok = true →
  ∃ params logs,
    trace (handle op (Returns (JObj d))) =
      Forward (method_of op) tok params
        :: Post (api_url tok (method_of op)) params 10 :: logs
    ∧ Forall (λ ev, is_forward ev = false ∧ is_post ev = false) logs
    ∧ params = delete "bot_token" d
    ∧ params !! "bot_token" = None
    ∧ ∀ k, k ≠ "bot_token" → params !! k = d !! k.
Proof.
  intros Hreq Hkey Htruthy.
  assert (dispatches DEFAULT_BOT_TOKEN op d tok) as Hd.
  { repeat split; [done| |done]. unfold resolve_credential. by rewrite Hkey. }
  rewrite (handle_dispatches _ _ _ Hd).
  destruct (forward_trace (method_of op) tok (delete "bot_token" d))
    as (logs & Hfwd & Hlogs).
  destruct (relay_trace (noun op)
              (send_telegram_request (method_of op) tok (delete "bot_token" d)))
    as (logs' & Hrelay & Hlogs').
  exists (delete "bot_token" d), (logs ++ logs').
  rewrite Hrelay, Hfwd. repeat split.
  - by apply Forall_app.
  - apply lookup_delete_eq.
  - intros k Hk. by apply lookup_delete_ne.
Qed.

(** C4: a non-empty body that lacks a required field is answered 400 with
    [{"error": "Missing required field: <name>"}], [<name>] being the first
    missing field in check order, and nothing else happens. *)
Theorem first_missing_field_reported (op : operation)
    (d : gmap string value) (name : string) :
  d ≠ ∅ →
  first_missing (required_fields op) d = Some name →
  handle op (Returns (JObj d)) =
    (Returns (error_body ("Missing required field: " +:+ name), 400), []).
Proof.
  intros Hne Hmiss.
  assert (truthy (JObj d) = true) as Hdata.
  { cbn. by rewrite bool_decide_eq_false_2. }
  destruct op; cbn in Hmiss;
    unfold handle, send_message, send_photo, send_document;
    rewrite bind_lift_returns, Hdata; cbn [negb]; unfold py_in;
    rewrite bind_mret;
    (destruct (bool_decide (is_Some (d !! "chat_id")));
       [|by simplify_eq]); cbn [negb];
    rewrite bind_mret;
    match goal with
    | |- context [bool_decide ?P] => destruct (bool_decide P)
    end; by simplify_eq.
Qed.

(** C5, amended: when the provider answers with a status that passes
    [raise_for_status] and a body that parses to the JSON value [R], every
    handler answers 200 with [R] itself, as a JSON value, as its body. *)
Theorem success_passthrough (op : operation) (d : gmap string value)
    (tok : value) (r : Response) (R : value) :
  dispatches DEFAULT_BOT_TOKEN op d tok →
  requests_post (api_url tok (method_of op)) (delete "bot_token" d) 10
    = Returns r →
  is_error_status (status_code r) = false →
  json r = Returns R →
  handle op (Returns (JObj d)) =
    (Returns (R, 200),
     [Forward (method_of op) tok (delete "bot_token" d);
      Post (api_url tok (method_of op)) (delete "bot_token" d) 10]).
Proof.
  intros Hd Hpost Hstatus Hjson. rewrite (handle_dispatches _ _ _ Hd).
  apply relay_returns. by apply forward_success with r.
Qed.

(** C6, amended: a body that decodes to an empty value ([None], [{}], [[]],
    the empty string, zero or [false]) is answered 400 with
    [{"error": "No data provided"}], and nothing else happens. *)
Theorem no_data_rejected (op : operation) (data : value) :
  truthy data = false →
  handle op (Returns data) =
    (Returns (error_body "No data provided", 400), []).
Proof.
  intros Hdata.
  destruct op; unfold handle, send_message, send_photo, send_document;
    by rewrite bind_lift_returns, Hdata.
Qed.

(** C7: a body that passes the field checks and has no [bot_token] key, when
    no default credential is configured, is answered 400 with the
    no-credential message, and the forwarder is not called. *)
Theorem no_credential_rejected (op : operation) (d : gmap string value) :
  DEFAULT_BOT_TOKEN = None →
  first_missing (required_fields op) d = None →
  d !! "bot_token" = None →
  handle op (Returns (JObj d)) =
    (Returns (error_body no_credential_message, 400), []).
Proof.
  intros Hdefault Hreq Hkey. apply handle_no_credential; [done|].
  unfold resolve_credential. by rewrite Hkey, Hdefault.
Qed.

(** C8: when the post fails with a requests exception that has no response
    (connection error, timeout), the forwarder raises an exception with no
    status attached whose message tells the reason, every handler answers
    500 with that message, and exactly one post was made. *)
Theorem transport_failure_relayed (op : operation) (d : gmap string value)
    (tok : value) (e : exn) :
  dispatches DEFAULT_BOT_TOKEN op d tok →
  requests_post (api_url tok (method_of op)) (delete "bot_token" d) 10
    = Raises e →
  is_RequestException e = true →
  exn_response e = None →
  result (send_telegram_request (method_of op) tok (delete "bot_token" d))
    = Raises (Exn Exception
                ("Request to Telegram API failed: " +:+ exn_str e) None)
  ∧ result (handle op (Returns (JObj d)))
    = Returns (error_body ("Request to Telegram API failed: " +:+ exn_str e),
               500)
  ∧ length (List.filter is_post (trace (handle op (Returns (JObj d)))))
    = 1%nat.
Proof.
  intros Hd Hpost Hclass Hresp. rewrite (handle_dispatches _ _ _ Hd).
  pose proof (forward_transport_failure _ _ _ _ Hpost Hclass Hresp) as Hfwd.
  by rewrite (relay_raises _ _ _ _ Hfwd), Hfwd.
Qed.

(** C9, amended: whenever a handler calls the forwarder, the credential it
    passes is a true value (so not [None], and not the empty string when it
    is a string), and the parameters do not contain the [bot_token] key. *)
Theorem dispatch_invariant (op : operation) (rq : outcome value)
    (method : string) (tok : value) (params : gmap string value) :
  Forward method tok params ∈ trace (handle op rq) →
  truthy tok = true
  ∧ tok ≠ JNull
  ∧ tok ≠ JStr EmptyString
  ∧ params !! "bot_token" = None.
Proof.
  intros Hin.
  destruct (handle_cases op rq) as [(d & tok' & -> & Hd)|Hnone];
    [|rewrite Hnone in Hin; by apply elem_of_nil in Hin].
  rewrite (handle_dispatches _ _ _ Hd) in Hin.
  destruct (forward_trace (method_of op) tok' (delete "bot_token" d))
    as (logs & Hfwd & Hlogs).
  destruct (relay_trace (noun op)
              (send_telegram_request (method_of op) tok' (delete "bot_token" d)))
    as (logs' & Hrelay & Hlogs').
  rewrite Hrelay, Hfwd in Hin.
  assert (tok = tok' ∧ params = delete "bot_token" d) as [-> ->].
  { cbn in Hin. apply elem_of_cons in Hin as [Heq|Hin]; [by simplify_eq|].
    apply elem_of_cons in Hin as [Heq|Hin]; [done|].
    rewrite Forall_forall in Hlogs. rewrite Forall_forall in Hlogs'.
    apply elem_of_app in Hin as [Hin|Hin];
      [destruct (Hlogs _ Hin)|destruct (Hlogs' _ Hin)]; discriminate. }
  destruct Hd as (_ & _ & Htruthy).
  repeat split; [done| | |apply lookup_delete_eq];
    intros ->; discriminate.
Qed.

(** C10: a body that passes the field checks and carries [bot_token] with an
    empty (false) value is answered 400 with the no-credential message
    whatever the default credential is, and the forwarder is not called. *)
Theorem empty_credential_not_defaulted (op : operation)
    (d : gmap string value) (v : value) :
  first_missing (required_fields op) d = None →
  d !! "bot_token" = Some v →
  truthy v = false →
  handle op (Returns (JObj d)) =
    (Returns (error_body no_credential_message, 400), []).
Proof.
  intros Hreq Hkey Hfalse. apply handle_no_credential; [done|].
  unfold resolve_credential. by rewrite Hkey.
Qed.

End Properties.

(** ** The properties at sample requests *)

Lemma provider_error_relayed_witness :
  dispatches None SendMessage Sample.hello (JStr "123:ABC")
  ∧ result (handle Sample.repr (Sample.net_reply Sample.reply_chat_not_found)
              None SendMessage (Returns (JObj Sample.hello)))
    = Returns (error_body "Telegram API error (400): Bad Request: chat not found",
               500).
Proof.
  split; [by repeat split|].
  apply (provider_error_relayed Sample.repr
           (Sample.net_reply Sample.reply_chat_not_found) None SendMessage
           Sample.hello (JStr "123:ABC") Sample.reply_chat_not_found);
    [by repeat split|reflexivity|reflexivity].
Defined.

Lemma unparsable_reply_is_error_witness :
  result (send_telegram_request Sample.repr
            (Sample.net_reply Sample.reply_html) "sendMessage"
            (JStr "123:ABC") Sample.hello_no_token)
  = Raises (Exn Exception
              "Request to Telegram API failed: Expecting value: line 1 column 1 (char 0)"
              None)
  ∧ result (handle Sample.repr (Sample.net_reply Sample.reply_html)
              (Some "123:ABC") SendMessage
              (Returns (JObj Sample.hello_no_token)))
    = Returns (error_body
                 "Request to Telegram API failed: Expecting value: line 1 column 1 (char 0)",
               500).
Proof.
  destruct (unparsable_reply_is_error Sample.repr
              (Sample.net_reply Sample.reply_html) (Some "123:ABC")
              SendMessage Sample.hello_no_token (JStr "123:ABC")
              Sample.reply_html Sample.not_json)
    as (Hwrap & _ & _);
    [by repeat split|reflexivity|reflexivity|reflexivity|].
  apply Hwrap; reflexivity.
Defined.

Lemma credential_removed_from_params_witness :
  ∃ logs,
    trace (handle Sample.repr Sample.net_down None SendMessage
             (Returns (JObj Sample.hello))) =
      Forward "sendMessage" (JStr "123:ABC") Sample.hello_no_token
        :: Post "https://api.telegram.org/bot123:ABC/sendMessage"
             Sample.hello_no_token 10 :: logs.
Proof.
  destruct (credential_removed_from_params Sample.repr Sample.net_down None
              SendMessage Sample.hello (JStr "123:ABC"))
    as (params & logs & Htrace & _ & -> & _); [reflexivity..|].
  exists logs. exact Htrace.
Defined.

Lemma first_missing_field_reported_witness :
  handle Sample.repr Sample.net_down None SendPhoto
    (Returns (JObj Sample.unrelated))
  = (Returns (error_body "Missing required field: chat_id", 400), [])
  ∧ handle Sample.repr Sample.net_down None SendDocument
      (Returns (JObj Sample.hello))
    = (Returns (error_body "Missing required field: document", 400), []).
Proof.
  split.
  - apply (first_missing_field_reported Sample.repr Sample.net_down None
             SendPhoto Sample.unrelated "chat_id"); [|reflexivity].
    intros H. apply (f_equal (lookup "caption")) in H. discriminate H.
  - apply (first_missing_field_reported Sample.repr Sample.net_down None
             SendDocument Sample.hello "document"); [|reflexivity].
    intros H. apply (f_equal (lookup "text")) in H. discriminate H.
Defined.

Lemma success_passthrough_witness :
  result (handle Sample.repr (Sample.net_reply Sample.reply_ok) None
            SendMessage (Returns (JObj Sample.hello)))
  = Returns (Sample.sent, 200).
Proof.
  rewrite (success_passthrough Sample.repr (Sample.net_reply Sample.reply_ok)
             None SendMessage Sample.hello (JStr "123:ABC") Sample.reply_ok
             Sample.sent); [reflexivity|by repeat split|reflexivity..].
Defined.

Lemma no_data_rejected_witness :
  handle Sample.repr Sample.net_down (Some "123:ABC") SendMessage
    (Returns (JObj ∅))
  = (Returns (error_body "No data provided", 400), []).
Proof.
  apply (no_data_rejected Sample.repr Sample.net_down (Some "123:ABC")
           SendMessage (JObj ∅)).
  reflexivity.
Defined.

Lemma no_credential_rejected_witness :
  handle Sample.repr Sample.net_down None SendMessage
    (Returns (JObj Sample.hello_no_token))
  = (Returns (error_body no_credential_message, 400), []).
Proof.
  apply (no_credential_rejected Sample.repr Sample.net_down None SendMessage
           Sample.hello_no_token); reflexivity.
Defined.

Lemma transport_failure_relayed_witness :
  result (handle Sample.repr Sample.net_down None SendMessage
            (Returns (JObj Sample.hello)))
  = Returns (error_body
               "Request to Telegram API failed: HTTPSConnectionPool(host='api.telegram.org', port=443): Read timed out. (read timeout=10)",
             500)
  ∧ length (List.filter is_post
              (trace (handle Sample.repr Sample.net_down None SendMessage
                        (Returns (JObj Sample.hello))))) = 1%nat.
Proof.
  destruct (transport_failure_relayed Sample.repr Sample.net_down None
              SendMessage Sample.hello (JStr "123:ABC") Sample.timed_out)
    as (_ & Hhandle & Hposts);
    [by repeat split|reflexivity..|].
  split; [exact Hhandle|exact Hposts].
Defined.

Lemma dispatch_invariant_witness :
  Forward "sendMessage" (JStr "123:ABC") Sample.hello_no_token
    ∈ trace (handle Sample.repr Sample.net_down None SendMessage
               (Returns (JObj Sample.hello)))
  ∧ truthy (JStr "123:ABC") = true
  ∧ Sample.hello_no_token !! "bot_token" = None.
Proof.
  assert (Forward "sendMessage" (JStr "123:ABC") Sample.hello_no_token
            ∈ trace (handle Sample.repr Sample.net_down None SendMessage
                       (Returns (JObj Sample.hello)))) as Hin.
  { vm_compute. apply list_elem_of_here. }
  destruct (dispatch_invariant Sample.repr Sample.net_down None SendMessage
              (Returns (JObj Sample.hello)) "sendMessage" (JStr "123:ABC")
              Sample.hello_no_token Hin)
    as (Htruthy & _ & _ & Hkey).
  split; [exact Hin|]. split; [exact Htruthy|exact Hkey].
Defined.

Lemma empty_credential_not_defaulted_witness :
  handle Sample.repr Sample.net_down (Some "123:ABC") SendMessage
    (Returns (JObj Sample.hello_empty_token))
  = (Returns (error_body no_credential_message, 400), []).
Proof.
  apply (empty_credential_not_defaulted Sample.repr Sample.net_down
           (Some "123:ABC") SendMessage Sample.hello_empty_token
           (JStr EmptyString)); reflexivity.
Defined.

(** ** Where the code departs from the specification's wording *)

(** C6 as stated fails: when the framework cannot decode the body,
    [request.json] raises before the handler's own check, and the handler
    gives no response of its own. *)
Lemma undecodable_body_not_no_data :
  handle Sample.repr Sample.net_down None SendMessage
    (Raises Sample.bad_request)
  = (Raises Sample.bad_request, [])
  ∧ result (handle Sample.repr Sample.net_down None SendMessage
              (Raises Sample.bad_request))
    ≠ Returns (error_body "No data provided", 400).
Proof. split; [reflexivity|discriminate]. Qed.

(** C1 as stated fails: a status of 300 is outside the success range, yet it
    passes [raise_for_status]; the body is parsed and relayed with a 200. *)
Lemma redirect_status_relayed_as_success :
  is_success_status (status_code Sample.reply_multiple_choices) = false
  ∧ result (handle Sample.repr (Sample.net_reply Sample.reply_multiple_choices)
              None SendMessage (Returns (JObj Sample.hello)))
    = Returns (JArr [JInt 1; JInt 2], 200)
  ∧ result (handle Sample.repr (Sample.net_reply Sample.reply_multiple_choices)
              None SendMessage (Returns (JObj Sample.hello)))
    ≠ Returns (error_body "Telegram API error (300): [1, 2]", 500).
Proof.
  split; [reflexivity|]. split; [reflexivity|].
  intros H. vm_compute in H. discriminate H.
Qed.

(** C2 as stated fails: a parse exception that is not a requests exception
    leaves the forwarder as it is, not wrapped like a transport failure. *)
Lemma foreign_parse_exception_not_wrapped :
  json Sample.reply_html_foreign = Raises Sample.value_error
  ∧ result (send_telegram_request Sample.repr
              (Sample.net_reply Sample.reply_html_foreign) "sendMessage"
              (JStr "123:ABC") Sample.hello_no_token)
    = Raises Sample.value_error
  ∧ Sample.value_error
    ≠ Exn Exception
        "Request to Telegram API failed: Expecting value: line 1 column 1 (char 0)"
        None.
Proof.
  split; [reflexivity|]. split; [reflexivity|].
  intros H. vm_compute in H. discriminate H.
Qed.

(** C5 as stated fails: two replies that differ in their bytes and parse to
    the same value get the very same response, so the response cannot
    carry the bytes of both. *)
Lemma passthrough_not_bytewise :
  text Sample.reply_list_spaced ≠ text Sample.reply_list_compact
  ∧ handle Sample.repr (Sample.net_reply Sample.reply_list_spaced) None
      SendMessage (Returns (JObj Sample.hello))
    = handle Sample.repr (Sample.net_reply Sample.reply_list_compact) None
        SendMessage (Returns (JObj Sample.hello))
  ∧ ¬ ∃ render : value → string,
        ∀ r body,
          r = Sample.reply_list_spaced ∨ r = Sample.reply_list_compact →
          result (handle Sample.repr (Sample.net_reply r) None SendMessage
                    (Returns (JObj Sample.hello))) = Returns (body, 200) →
          render body = text r.
Proof.
  split; [intros H; vm_compute in H; discriminate H|].
  split; [reflexivity|].
  intros [render Hrender].
  pose proof (Hrender Sample.reply_list_spaced (JArr [JInt 1; JInt 2])
                (or_introl eq_refl) eq_refl) as Hspaced.
  pose proof (Hrender Sample.reply_list_compact (JArr [JInt 1; JInt 2])
                (or_intror eq_refl) eq_refl) as Hcompact.
  rewrite Hspaced in Hcompact. vm_compute in Hcompact. discriminate Hcompact.
Qed.

(** C9 as stated fails: a body whose [bot_token] is the number 123 reaches
    the forwarder with that number, which is not a string, as credential. *)
Lemma numeric_credential_dispatched :
  Forward "sendMessage" (JInt 123) Sample.hello_no_token
    ∈ trace (handle Sample.repr Sample.net_down None SendMessage
               (Returns (JObj Sample.hello_numeric_token)))
  ∧ ¬ ∃ s, JInt 123 = JStr s ∧ s ≠ EmptyString.
Proof.
  split.
  - vm_compute. apply list_elem_of_here.
  - intros (s & Heq & _). discriminate Heq.
Qed.

(** ** Remarks on inputs outside the specification's data model *)

(** A status below 400 that is not a 2xx one passes [raise_for_status], and
    the body is parsed and relayed like any success. *)
Lemma not_modified_reply_relayed :
  result (handle Sample.repr (Sample.net_reply Sample.reply_not_modified) None
            SendMessage (Returns (JObj Sample.hello)))
  = Returns (Sample.sent, 200).
Proof. reflexivity. Qed.

(** A body that is a number has no [in]: the check of the first field
    raises, and the exception leaves the handler. *)
Lemma number_body_raises :
  handle Sample.repr Sample.net_down None SendMessage (Returns (JInt 5))
  = (Raises (Exn TypeError "argument of type 'int' is not iterable" None), []).
Proof. reflexivity. Qed.

(** A list that happens to contain both field names passes the checks, and
    then [pop] with two arguments raises. *)
Lemma list_body_raises :
  handle Sample.repr Sample.net_down None SendMessage
    (Returns (JArr [JStr "chat_id"; JStr "text"]))
  = (Raises (Exn TypeError "pop expected at most 1 argument, got 2" None), []).
Proof. reflexivity. Qed.

(** A parse exception that is not a requests exception passes through the
    forwarder as it is, and the handler's [except Exception] still turns it
    into a 500 response. *)
Lemma foreign_parse_exception_relayed (e : exn) (r : Response) :
  is_RequestException e = false →
  is_error_status (status_code r) = false →
  json r = Raises e →
  result (send_telegram_request Sample.repr (Sample.net_reply r) "sendMessage"
            (JStr "123:ABC") Sample.hello_no_token) = Raises e
  ∧ result (handle Sample.repr (Sample.net_reply r) None SendMessage
              (Returns (JObj Sample.hello)))
    = Returns (error_body (exn_str e), 500).
Proof.
  intros Hclass Hstatus Hjson.
  destruct (forward_json_failure Sample.repr (Sample.net_reply r) "sendMessage"
              (JStr "123:ABC") Sample.hello_no_token r e eq_refl Hstatus Hjson)
    as (err & logs & Hfwd & Hraw & _).
  rewrite (Hraw Hclass) in Hfwd. split; [by rewrite Hfwd|].
  rewrite (handle_dispatches Sample.repr (Sample.net_reply r) None SendMessage
             Sample.hello (JStr "123:ABC")); [|by repeat split].
  change (delete "bot_token" Sample.hello) with Sample.hello_no_token.
  by rewrite (relay_raises _ _ _ _ Hfwd).
Qed.

(** * Further properties of the code *)

Lemma append_cancel_l (p a b : string) : p +:+ a = p +:+ b → a = b.
Proof. induction p as [|c p IH]; cbn; [done|]. intros [= H]. by apply IH. Qed.

Lemma filter_post_logs (logs : list event) :
  Forall (λ ev, is_log ev = true) logs →
  List.filter is_post logs = [] ∧ List.filter is_forward logs = [].
Proof.
  induction 1 as [|ev logs Hev _ [IHp IHf]]; [done|].
  destruct ev; try discriminate. cbn. by rewrite IHp, IHf.
Qed.

Section Further.

Context (py_repr : value → string).
Context (requests_post : string → gmap string value → Z → outcome Response).
Context (DEFAULT_BOT_TOKEN : option string).

Local Abbreviation handle := (handle py_repr requests_post DEFAULT_BOT_TOKEN).
Local Abbreviation send_telegram_request :=
  (send_telegram_request py_repr requests_post).
Local Abbreviation api_url := (api_url py_repr).

(** *** Every way a call of the forwarder can end *)

Lemma forward_cases (method : string) (tok : value)
    (params : gmap string value) :
  (∃ r R,
      requests_post (api_url tok method) params 10 = Returns r
      ∧ is_error_status (status_code r) = false
      ∧ json r = Returns R
      ∧ send_telegram_request method tok params =
          (Returns R,
           [Forward method tok params; Post (api_url tok method) params 10]))
  ∨ (∃ err logs,
      send_telegram_request method tok params =
        (Raises err,
         Forward method tok params :: Post (api_url tok method) params 10
           :: logs)
      ∧ is_RequestException err = false
      ∧ Forall (λ ev, is_log ev = true) logs).
Proof.
  destruct (requests_post (api_url tok method) params 10) as [r|e] eqn:Hpost.
  - destruct (is_error_status (status_code r)) eqn:Hstatus.
    + right. destruct (forward_http_error _ _ _ _ _ _ Hpost Hstatus)
        as [line Hfwd].
      eexists _, _. split; [exact Hfwd|]. split; [done|]. by repeat constructor.
    + destruct (json r) as [R|e] eqn:Hjson.
      * left. exists r, R. repeat split; try done.
        by apply forward_success with r.
      * right. unfold send_telegram_request, post.
        rewrite Hpost. cbn -[raise_for_status].
        rewrite (raise_for_status_ok _ Hstatus), Hjson. cbn.
        destruct (is_RequestException e) eqn:Hclass; cbn;
          [destruct (exn_response e) as [[code detail]|]; cbn|];
          eexists _, _; (split; [reflexivity|]); split; try done;
          by repeat constructor.
  - right. unfold send_telegram_request, post.
    rewrite Hpost. cbn.
    destruct (is_RequestException e) eqn:Hclass; cbn;
      [destruct (exn_response e) as [[code detail]|]; cbn|];
      eexists _, _; (split; [reflexivity|]); split; try done;
      by repeat constructor.
Qed.

(** *** Every way a request that passed the checks can end *)

Lemma handle_dispatched_cases (op : operation) (d : gmap string value)
    (tok : value) :
  dispatches DEFAULT_BOT_TOKEN op d tok →
  (∃ r R,
      requests_post (api_url tok (method_of op)) (delete "bot_token" d) 10
        = Returns r
      ∧ is_error_status (status_code r) = false
      ∧ json r = Returns R
      ∧ handle op (Returns (JObj d)) =
          (Returns (R, 200),
           [Forward (method_of op) tok (delete "bot_token" d);
            Post (api_url tok (method_of op)) (delete "bot_token" d) 10]))
  ∨ (∃ m logs,
      handle op (Returns (JObj d)) =
        (Returns (error_body m, 500),
         Forward (method_of op) tok (delete "bot_token" d)
           :: Post (api_url tok (method_of op)) (delete "bot_token" d) 10
           :: logs
           ++ [LogError ("Error sending " +:+ noun op +:+ ": " +:+ m)])
      ∧ Forall (λ ev, is_log ev = true) logs).
Proof.
  intros Hd. rewrite (handle_dispatches _ _ _ _ _ _ Hd).
  destruct (forward_cases (method_of op) tok (delete "bot_token" d))
    as [(r & R & Hpost & Hstatus & Hjson & Hfwd)
       |(err & logs & Hfwd & _ & Hlogs)].
  - left. exists r, R. repeat split; try done. by apply relay_returns.
  - right. exists (exn_str err), logs. split; [|done].
    by rewrite (relay_raises _ _ _ _ Hfwd).
Qed.

(** *** A handler on a JSON object, with its checks written out *)

Lemma handle_missing_field (op : operation) (d : gmap string value)
    (name : string) :
  d ≠ ∅ →
  first_missing (required_fields op) d = Some name →
  handle op (Returns (JObj d)) =
    (Returns (error_body ("Missing required field: " +:+ name), 400), []).
Proof.
  intros Hne Hmiss.
  assert (truthy (JObj d) = true) as Hdata.
  { cbn. by rewrite bool_decide_eq_false_2. }
  destruct op; cbn in Hmiss;
    unfold handle, send_message, send_photo, send_document;
    rewrite bind_lift_returns, Hdata; cbn [negb]; unfold py_in;
    rewrite bind_mret;
    (destruct (bool_decide (is_Some (d !! "chat_id")));
       [|by simplify_eq]); cbn [negb];
    rewrite bind_mret;
    match goal with
    | |- context [bool_decide ?P] => destruct (bool_decide P)
    end; by simplify_eq.
Qed.

Lemma handle_object (op : operation) (d : gmap string value) :
  handle op (Returns (JObj d)) =
    if bool_decide (d = ∅) then
      (Returns (error_body "No data provided", 400), [])
    else
      match first_missing (required_fields op) d with
      | Some name =>
          (Returns (error_body ("Missing required field: " +:+ name), 400), [])
      | None =>
          if truthy (resolve_credential DEFAULT_BOT_TOKEN d) then
            relay (noun op)
              (send_telegram_request (method_of op)
                 (resolve_credential DEFAULT_BOT_TOKEN d)
                 (delete "bot_token" d))
          else (Returns (error_body no_credential_message, 400), [])
      end.
Proof.
  case_bool_decide as Hempty.
  - destruct op; unfold handle, send_message, send_photo, send_document;
      rewrite bind_lift_returns; cbn [truthy];
      by rewrite (bool_decide_eq_true_2 _ Hempty).
  - destruct (first_missing (required_fields op) d) as [name|] eqn:Hreq.
    + by apply handle_missing_field.
    + destruct (truthy (resolve_credential DEFAULT_BOT_TOKEN d)) eqn:Htok.
      * by apply handle_dispatches.
      * by apply handle_no_credential.
Qed.

(** A JSON object either passes the checks or is refused with a 400. *)
Lemma handle_object_cases (op : operation) (d : gmap string value) :
  (∃ tok, dispatches DEFAULT_BOT_TOKEN op d tok)
  ∨ (∃ m, handle op (Returns (JObj d)) = (Returns (error_body m, 400), [])).
Proof.
  rewrite handle_object. case_bool_decide; [by eauto|].
  destruct (first_missing (required_fields op) d) as [name|] eqn:Hreq;
    [by eauto|].
  destruct (truthy (resolve_credential DEFAULT_BOT_TOKEN d)) eqn:Htok;
    [|by eauto].
  left. by exists (resolve_credential DEFAULT_BOT_TOKEN d).
Qed.

(** A body of another type is refused with a 400 or makes the handler
    raise; either way nothing has been done. *)
Lemma handle_non_object (op : operation) (data : value) :
  is_object data = false →
  (∃ m, handle op (Returns data) = (Returns (error_body m, 400), []))
  ∨ (∃ e, handle op (Returns data) = (Raises e, [])
       ∧ (exn_class_of e = TypeError ∨ exn_class_of e = AttributeError)).
Proof.
  intros Hobj.
  destruct data as [| b | z | f | s | l | d]; [..|discriminate];
    destruct op; cbn;
    unfold py_in, py_pop, mret, mbind, M_ret, M_bind, raise, lift; cbn;
    repeat (case_match; simplify_eq; cbn in *); eauto 8.
Qed.

(** Every way a request can end: the handler raises with nothing done, it
    refuses with a 400 with nothing done, or the body is an object that
    passed the checks. *)
Lemma handle_all_cases (op : operation) (rq : outcome value) :
  (∃ e, handle op rq = (Raises e, []))
  ∨ (∃ m, handle op rq = (Returns (error_body m, 400), []))
  ∨ (∃ d tok, rq = Returns (JObj d) ∧ dispatches DEFAULT_BOT_TOKEN op d tok).
Proof.
  destruct rq as [data|e].
  - destruct (is_object data) eqn:Hobj.
    + destruct data; try discriminate.
      destruct (handle_object_cases op m) as [[tok Hd]|Hrefused]; eauto 6.
    + destruct (handle_non_object op data Hobj) as [?|(e & He & _)]; eauto.
  - left. exists e. by destruct op.
Qed.

Lemma first_missing_insert (fields : list string) (d : gmap string value)
    (k : string) (v : value) :
  first_missing fields d = None → first_missing fields (<[k:=v]> d) = None.
Proof.
  induction fields as [|f fields IH]; cbn; [done|].
  case_bool_decide as Hf; [|done]. intros Hrest.
  rewrite bool_decide_eq_true_2; [by apply IH|].
  apply lookup_insert_is_Some. destruct (decide (k = f)); auto.
Qed.

Lemma first_missing_dom (fields : list string) (d d' : gmap string value) :
  dom d = dom d' → first_missing fields d = first_missing fields d'.
Proof.
  intros Hdom. induction fields as [|f fields IH]; cbn; [done|].
  rewrite IH. f_equal.
  rewrite (bool_decide_ext (is_Some (d !! f)) (is_Some (d' !! f))); [done|].
  by rewrite <- !elem_of_dom, Hdom.
Qed.

(** *** Properties of the handlers *)

(** X1: a request whose body is a JSON object always gets a response from
    the handler, never an exception, and its status is 200, 400 or 500. *)
Theorem object_body_always_answered (op : operation)
    (d : gmap string value) :
  ∃ body st,
    result (handle op (Returns (JObj d))) = Returns (body, st)
    ∧ (st = 200 ∨ st = 400 ∨ st = 500).
Proof.
  destruct (handle_object_cases op d) as [[tok Hd]|[m Hrefused]].
  - destruct (handle_dispatched_cases op d tok Hd)
      as [(r & R & _ & _ & _ & Hrun)|(m & logs & Hrun & _)];
      rewrite Hrun; eauto 6.
  - rewrite Hrefused. eauto 6.
Qed.

(** X2: a 400 response is decided locally: its body is an error envelope
    and the handler has called neither the forwarder nor the network, and
    has logged nothing. *)
Theorem client_error_is_local (op : operation) (rq : outcome value)
    (body : value) :
  result (handle op rq) = Returns (body, 400) →
  trace (handle op rq) = [] ∧ ∃ m, body = error_body m.
Proof.
  intros Hres.
  destruct (handle_all_cases op rq)
    as [[e Hrun]|[[m Hrun]|(d & tok & -> & Hd)]].
  - rewrite Hrun in Hres. discriminate Hres.
  - rewrite Hrun in *. cbn in Hres. simplify_eq. eauto.
  - destruct (handle_dispatched_cases op d tok Hd)
      as [(r & R & _ & _ & _ & Hrun)|(m & logs & Hrun & _)];
      rewrite Hrun in Hres; cbn in Hres; simplify_eq.
Qed.

(** X3: whatever the request and the network do, a handler makes at most one
    post, and as many posts as calls of the forwarder. *)
Theorem at_most_one_post (op : operation) (rq : outcome value) :
  (length (List.filter is_post (trace (handle op rq))) ≤ 1)%nat
  ∧ length (List.filter is_forward (trace (handle op rq)))
    = length (List.filter is_post (trace (handle op rq))).
Proof.
  destruct (handle_all_cases op rq)
    as [[e Hrun]|[[m Hrun]|(d & tok & -> & Hd)]].
  - rewrite Hrun. cbn. lia.
  - rewrite Hrun. cbn. lia.
  - destruct (handle_dispatched_cases op d tok Hd)
      as [(r & R & _ & _ & _ & Hrun)|(m & logs & Hrun & Hlogs)];
      rewrite Hrun; cbn; [lia|].
    rewrite !List.filter_app. cbn.
    destruct (filter_post_logs logs Hlogs) as [-> ->]. cbn. lia.
Qed.

(** X4: every post a handler makes has timeout 10, goes to the URL built
    from a true credential and the operation's own method, and carries no
    [bot_token] key in its JSON body. *)
Theorem posts_are_well_formed (op : operation) (rq : outcome value)
    (url : string) (params : gmap string value) (timeout : Z) :
  Post url params timeout ∈ trace (handle op rq) →
  timeout = 10
  ∧ params !! "bot_token" = None
  ∧ ∃ tok, truthy tok = true ∧ url = api_url tok (method_of op).
Proof.
  intros Hin.
  destruct (handle_all_cases op rq)
    as [[e Hrun]|[[m Hrun]|(d & tok & -> & Hd)]];
    [rewrite Hrun in Hin; by apply elem_of_nil in Hin..|].
  assert (Post url params timeout
          = Post (api_url tok (method_of op)) (delete "bot_token" d) 10)
    as Heq.
  { destruct (handle_dispatched_cases op d tok Hd)
      as [(r & R & _ & _ & _ & Hrun)|(m & logs & Hrun & Hlogs)];
      rewrite Hrun in Hin; cbn in Hin;
      apply elem_of_cons in Hin as [Heq|Hin]; try discriminate;
      apply elem_of_cons in Hin as [Heq|Hin]; try done.
    - by apply elem_of_nil in Hin.
    - apply elem_of_app in Hin as [Hin|Hin].
      + rewrite Forall_forall in Hlogs. by specialize (Hlogs _ Hin).
      + apply list_elem_of_singleton in Hin. discriminate Hin. }
  simplify_eq. destruct Hd as (_ & _ & Htruthy).
  split; [done|]. split; [apply lookup_delete_eq|]. by exists tok.
Qed.

(** X5: a handler answers 200 only when the body was a JSON object that
    passed the checks, the provider's reply passed the status check and its
    body parsed; the response body is then the parsed reply. *)
Theorem success_only_from_provider (op : operation) (rq : outcome value)
    (body : value) :
  result (handle op rq) = Returns (body, 200) →
  ∃ d tok r,
    rq = Returns (JObj d)
    ∧ dispatches DEFAULT_BOT_TOKEN op d tok
    ∧ requests_post (api_url tok (method_of op)) (delete "bot_token" d) 10
      = Returns r
    ∧ is_error_status (status_code r) = false
    ∧ json r = Returns body.
Proof.
  intros Hres.
  destruct (handle_all_cases op rq)
    as [[e Hrun]|[[m Hrun]|(d & tok & -> & Hd)]].
  - rewrite Hrun in Hres. discriminate Hres.
  - rewrite Hrun in Hres. cbn in Hres. simplify_eq.
  - destruct (handle_dispatched_cases op d tok Hd)
      as [(r & R & Hpost & Hstatus & Hjson & Hrun)|(m & logs & Hrun & _)];
      rewrite Hrun in Hres; cbn in Hres; simplify_eq.
    by exists d, tok, r.
Qed.

(** X6: when the body passes the field checks and has no [bot_token] key
    and a non-empty default credential is configured, the forwarder is
    called with the default and with the whole body, unchanged, as
    parameters. *)
Theorem default_credential_used (op : operation) (d : gmap string value)
    (s : string) :
  DEFAULT_BOT_TOKEN = Some s →
  s ≠ EmptyString →
  first_missing (required_fields op) d = None →
  d !! "bot_token" = None →
  ∃ logs,
    trace (handle op (Returns (JObj d))) =
      Forward (method_of op) (JStr s) d
        :: Post (api_url (JStr s) (method_of op)) d 10 :: logs
    ∧ Forall (λ ev, is_log ev = true) logs.
Proof.
  intros Hdefault Hs Hreq Hkey.
  assert (dispatches DEFAULT_BOT_TOKEN op d (JStr s)) as Hd.
  { split; [done|]. unfold resolve_credential, default_token.
    rewrite Hkey, Hdefault. split; [done|]. cbn.
    destruct (String.eqb_spec s EmptyString); done. }
  destruct (handle_dispatched_cases op d (JStr s) Hd)
    as [(r & R & _ & _ & _ & Hrun)|(m & logs & Hrun & Hlogs)];
    rewrite Hrun, (delete_id _ _ Hkey); cbn.
  - by exists [].
  - eexists. split; [reflexivity|]. apply Forall_app. split; [done|].
    by repeat constructor.
Qed.

(** X10: every 500 response is an error envelope whose message the handler
    has just logged, prefixed with what it was sending, as the last action
    of the request. *)
Theorem server_errors_are_logged (op : operation) (rq : outcome value)
    (body : value) :
  result (handle op rq) = Returns (body, 500) →
  ∃ m, body = error_body m
    ∧ last (trace (handle op rq))
      = Some (LogError ("Error sending " +:+ noun op +:+ ": " +:+ m)).
Proof.
  intros Hres.
  destruct (handle_all_cases op rq)
    as [[e Hrun]|[[m Hrun]|(d & tok & -> & Hd)]].
  - rewrite Hrun in Hres. discriminate Hres.
  - rewrite Hrun in Hres. cbn in Hres. simplify_eq.
  - destruct (handle_dispatched_cases op d tok Hd)
      as [(r & R & _ & _ & _ & Hrun)|(m & logs & Hrun & _)];
      rewrite Hrun in Hres |- *; cbn in Hres; simplify_eq.
    exists m. split; [done|]. cbn [trace snd].
    by rewrite !app_comm_cons, last_snoc.
Qed.

(** X11: a body that is not a JSON object never reaches the forwarder or the
    network: the handler either refuses it with a 400 error envelope or
    raises a TypeError or AttributeError. *)
Theorem non_object_body_never_forwarded (op : operation) (data : value) :
  is_object data = false →
  trace (handle op (Returns data)) = []
  ∧ ((∃ m, result (handle op (Returns data)) = Returns (error_body m, 400))
     ∨ (∃ e, result (handle op (Returns data)) = Raises e
          ∧ (exn_class_of e = TypeError ∨ exn_class_of e = AttributeError))).
Proof.
  intros Hobj.
  destruct (handle_non_object op data Hobj) as [[m Hrun]|(e & Hrun & Hclass)];
    rewrite Hrun; split; eauto.
Qed.

(** X12: adding or replacing any field other than [bot_token] in a body that
    is forwarded leaves it forwarded with the same credential, and the new
    field is passed on as it is among the parameters. *)
Theorem extra_fields_pass_through (op : operation) (d : gmap string value)
    (tok : value) (k : string) (v : value) :
  dispatches DEFAULT_BOT_TOKEN op d tok →
  k ≠ "bot_token" →
  dispatches DEFAULT_BOT_TOKEN op (<[k:=v]> d) tok
  ∧ ∃ logs,
      trace (handle op (Returns (JObj (<[k:=v]> d)))) =
        Forward (method_of op) tok (<[k:=v]> (delete "bot_token" d))
          :: Post (api_url tok (method_of op))
               (<[k:=v]> (delete "bot_token" d)) 10 :: logs.
Proof.
  intros (Hreq & Htok & Htruthy) Hk.
  assert (dispatches DEFAULT_BOT_TOKEN op (<[k:=v]> d) tok) as Hd.
  { split; [by apply first_missing_insert|]. split; [|done].
    unfold resolve_credential in *. by rewrite lookup_insert_ne. }
  split; [done|].
  destruct (handle_dispatched_cases op _ tok Hd)
    as [(r & R & _ & _ & _ & Hrun)|(m & logs & Hrun & _)];
    rewrite Hrun, delete_insert_ne by done; cbn; eauto.
Qed.

(** X14: the checks look at which keys the body has and at the value of
    [bot_token] only: two bodies with the same keys and the same
    [bot_token] entry are both forwarded with the same credential, or both
    refused with the same response. *)
Theorem validation_ignores_values (op : operation)
    (d d' : gmap string value) :
  dom d = dom d' →
  d !! "bot_token" = d' !! "bot_token" →
  (∃ tok, dispatches DEFAULT_BOT_TOKEN op d tok
          ∧ dispatches DEFAULT_BOT_TOKEN op d' tok)
  ∨ (trace (handle op (Returns (JObj d))) = []
     ∧ handle op (Returns (JObj d')) = handle op (Returns (JObj d))).
Proof.
  intros Hdom Hkey.
  assert (bool_decide (d' = ∅) = bool_decide (d = ∅)) as Hempty.
  { apply bool_decide_ext. by rewrite <- !dom_empty_iff_L, Hdom. }
  assert (resolve_credential DEFAULT_BOT_TOKEN d'
          = resolve_credential DEFAULT_BOT_TOKEN d) as Hcred.
  { unfold resolve_credential. by rewrite Hkey. }
  rewrite !handle_object, Hempty, Hcred,
    <- (first_missing_dom (required_fields op) d d' Hdom).
  clear Hempty. destruct (bool_decide (d = ∅)); [by right|].
  destruct (first_missing (required_fields op) d) as [name|] eqn:Hreq;
    [by right|].
  destruct (truthy (resolve_credential DEFAULT_BOT_TOKEN d)) eqn:Htok;
    [|by right].
  left. exists (resolve_credential DEFAULT_BOT_TOKEN d).
  repeat split; try done.
  by rewrite <- (first_missing_dom (required_fields op) d d' Hdom).
Qed.

(** *** Properties of the forwarder *)

(** X8: no requests exception ever leaves the forwarder: whatever it raises
    is an exception of another class. *)
Theorem forwarder_raises_no_requests_exception (method : string)
    (tok : value) (params : gmap string value) (err : exn) :
  result (send_telegram_request method tok params) = Raises err →
  is_RequestException err = false.
Proof.
  intros Hres.
  destruct (forward_cases method tok params)
    as [(r & R & _ & _ & _ & Hrun)|(err' & logs & Hrun & Hclass & _)];
    rewrite Hrun in Hres; cbn in Hres; by simplify_eq.
Qed.

(** X9: when the post itself raises a requests exception that carries a
    response (as a redirect loop does), the forwarder reports that
    response's status and text, and the handler answers 500 with them. *)
Theorem exception_with_response_relayed (op : operation)
    (d : gmap string value) (tok : value) (e : exn) (code : Z)
    (detail : string) :
  dispatches DEFAULT_BOT_TOKEN op d tok →
  requests_post (api_url tok (method_of op)) (delete "bot_token" d) 10
    = Raises e →
  is_RequestException e = true →
  exn_response e = Some (code, detail) →
  result (send_telegram_request (method_of op) tok (delete "bot_token" d))
    = Raises (Exn Exception
                ("Telegram API error (" +:+ decimal code +:+ "): " +:+ detail)
                None)
  ∧ result (handle op (Returns (JObj d)))
    = Returns (error_body ("Telegram API error (" +:+ decimal code +:+ "): "
                             +:+ detail), 500).
Proof.
  intros Hd Hpost Hclass Hresp.
  assert (send_telegram_request (method_of op) tok (delete "bot_token" d)
          = (Raises (Exn Exception
                       ("Telegram API error (" +:+ decimal code +:+ "): "
                          +:+ detail) None),
             [Forward (method_of op) tok (delete "bot_token" d);
              Post (api_url tok (method_of op)) (delete "bot_token" d) 10;
              LogError ("Telegram API request failed: " +:+ exn_str e)]))
    as Hfwd.
  { unfold send_telegram_request, post. rewrite Hpost. cbn.
    rewrite Hclass. cbn. by rewrite Hresp. }
  rewrite (handle_dispatches _ _ _ _ _ _ Hd), (relay_raises _ _ _ _ Hfwd).
  by rewrite Hfwd.
Qed.

(** X13: the forwarder returns a value only when the post returned a reply
    that passed the status check and whose body parsed to that value; it has
    then posted once and logged nothing. *)
Theorem forwarder_returns_only_parsed_success (method : string)
    (tok : value) (params : gmap string value) (R : value) :
  result (send_telegram_request method tok params) = Returns R →
  ∃ r,
    requests_post (api_url tok method) params 10 = Returns r
    ∧ is_error_status (status_code r) = false
    ∧ json r = Returns R
    ∧ trace (send_telegram_request method tok params) =
        [Forward method tok params; Post (api_url tok method) params 10].
Proof.
  intros Hres.
  destruct (forward_cases method tok params)
    as [(r & R' & Hpost & Hstatus & Hjson & Hrun)|(err & logs & Hrun & _)];
    rewrite Hrun in Hres |- *; cbn in Hres; simplify_eq.
  by exists r.
Qed.

(** X15: for one credential, two different operations post to two
    different URLs. *)
Theorem operations_have_distinct_urls (tok : value) (op op' : operation) :
  op ≠ op' → api_url tok (method_of op) ≠ api_url tok (method_of op').
Proof.
  unfold api_url. intros Hne Heq.
  do 3 apply append_cancel_l in Heq. by destruct op, op'.
Qed.

(** X16: each call of the forwarder with a string as token makes exactly one
    post, whatever the network answers: to the URL built from the token and
    the method, with the parameters it was given and a timeout of 10. *)
Theorem forwarder_posts_exactly_once (method token : string)
    (params : gmap string value) :
  List.filter is_post
    (trace (send_telegram_request method (JStr token) params))
  = [Post ("https://api.telegram.org/bot" +:+ token +:+ "/" +:+ method)
       params 10].
Proof.
  destruct (forward_cases method (JStr token) params)
    as [(r & R & _ & _ & _ & Hrun)|(err & logs & Hrun & _ & Hlogs)];
    rewrite Hrun; cbn; [done|].
  by destruct (filter_post_logs logs Hlogs) as [-> _].
Qed.

End Further.

(** X7: when the body has a [bot_token] key, the default credential plays no
    part: the handler behaves the same under any two defaults. *)
Theorem body_credential_overrides_default (py_repr : value → string)
    (requests_post : string → gmap string value → Z → outcome Response)
    (default default' : option string) (op : operation)
    (d : gmap string value) (v : value) :
  d !! "bot_token" = Some v →
  handle py_repr requests_post default op (Returns (JObj d))
  = handle py_repr requests_post default' op (Returns (JObj d)).
Proof.
  intros Hkey. rewrite !handle_object. unfold resolve_credential.
  by rewrite Hkey.
Qed.

(** ** The further properties at sample requests *)

Lemma client_error_is_local_witness :
  trace (handle Sample.repr Sample.net_down None SendMessage
           (Returns (JObj Sample.only_text))) = []
  ∧ ∃ m, error_body "Missing required field: chat_id" = error_body m.
Proof.
  apply (client_error_is_local Sample.repr Sample.net_down None SendMessage
           (Returns (JObj Sample.only_text))
           (error_body "Missing required field: chat_id")).
  reflexivity.
Defined.

Lemma posts_are_well_formed_witness :
  Post "https://api.telegram.org/bot123:ABC/sendMessage"
       Sample.hello_no_token 10
    ∈ trace (handle Sample.repr Sample.net_down None SendMessage
               (Returns (JObj Sample.hello)))
  ∧ Sample.hello_no_token !! "bot_token" = None
  ∧ ∃ tok, truthy tok = true
      ∧ "https://api.telegram.org/bot123:ABC/sendMessage"
        = api_url Sample.repr tok "sendMessage".
Proof.
  assert (Post "https://api.telegram.org/bot123:ABC/sendMessage"
               Sample.hello_no_token 10
            ∈ trace (handle Sample.repr Sample.net_down None SendMessage
                       (Returns (JObj Sample.hello)))) as Hin.
  { vm_compute. apply list_elem_of_further, list_elem_of_here. }
  split; [exact Hin|].
  destruct (posts_are_well_formed Sample.repr Sample.net_down None
              SendMessage (Returns (JObj Sample.hello)) _ _ _ Hin)
    as (_ & Hkey & Hurl).
  split; [exact Hkey|exact Hurl].
Defined.

Lemma success_only_from_provider_witness :
  ∃ d tok r,
    Returns (JObj Sample.hello) = Returns (JObj d)
    ∧ dispatches None SendMessage d tok
    ∧ Sample.net_reply Sample.reply_ok
        (api_url Sample.repr tok "sendMessage") (delete "bot_token" d) 10
      = Returns r
    ∧ is_error_status (status_code r) = false
    ∧ json r = Returns Sample.sent.
Proof.
  apply (success_only_from_provider Sample.repr
           (Sample.net_reply Sample.reply_ok) None SendMessage
           (Returns (JObj Sample.hello)) Sample.sent).
  reflexivity.
Defined.

Lemma default_credential_used_witness :
  ∃ logs,
    trace (handle Sample.repr Sample.net_down (Some "123:ABC") SendMessage
             (Returns (JObj Sample.hello_no_token))) =
      Forward "sendMessage" (JStr "123:ABC") Sample.hello_no_token
        :: Post "https://api.telegram.org/bot123:ABC/sendMessage"
             Sample.hello_no_token 10 :: logs
    ∧ Forall (λ ev, is_log ev = true) logs.
Proof.
  apply (default_credential_used Sample.repr Sample.net_down
           (Some "123:ABC") SendMessage Sample.hello_no_token "123:ABC");
    [reflexivity|discriminate|reflexivity|reflexivity].
Defined.

Lemma body_credential_overrides_default_witness :
  handle Sample.repr Sample.net_down None SendMessage
    (Returns (JObj Sample.hello))
  = handle Sample.repr Sample.net_down (Some "456:DEF") SendMessage
      (Returns (JObj Sample.hello)).
Proof.
  apply (body_credential_overrides_default Sample.repr Sample.net_down None
           (Some "456:DEF") SendMessage Sample.hello (JStr "123:ABC")).
  reflexivity.
Defined.

Lemma forwarder_raises_no_requests_exception_witness :
  result (send_telegram_request Sample.repr Sample.net_down "sendMessage"
            (JStr "123:ABC") Sample.hello_no_token)
  = Raises (Exn Exception
              "Request to Telegram API failed: HTTPSConnectionPool(host='api.telegram.org', port=443): Read timed out. (read timeout=10)"
              None)
  ∧ is_RequestException
      (Exn Exception
         "Request to Telegram API failed: HTTPSConnectionPool(host='api.telegram.org', port=443): Read timed out. (read timeout=10)"
         None) = false.
Proof.
  split; [reflexivity|].
  apply (forwarder_raises_no_requests_exception Sample.repr Sample.net_down
           "sendMessage" (JStr "123:ABC") Sample.hello_no_token).
  reflexivity.
Defined.

Lemma exception_with_response_relayed_witness :
  result (handle Sample.repr Sample.net_redirect_loop None SendMessage
            (Returns (JObj Sample.hello)))
  = Returns (error_body "Telegram API error (302): Found", 500).
Proof.
  destruct (exception_with_response_relayed Sample.repr
              Sample.net_redirect_loop None SendMessage Sample.hello
              (JStr "123:ABC") Sample.redirect_loop 302 "Found")
    as [_ Hhandle]; [by repeat split|reflexivity..|].
  exact Hhandle.
Defined.

Lemma server_errors_are_logged_witness :
  ∃ m,
    error_body "Telegram API error (400): Bad Request: chat not found"
      = error_body m
    ∧ last (trace (handle Sample.repr
                     (Sample.net_reply Sample.reply_chat_not_found) None
                     SendPhoto (Returns (JObj (<["photo" := JStr "p"]> Sample.hello)))))
      = Some (LogError ("Error sending photo: " +:+ m)).
Proof.
  apply (server_errors_are_logged Sample.repr
           (Sample.net_reply Sample.reply_chat_not_found) None SendPhoto
           (Returns (JObj (<["photo" := JStr "p"]> Sample.hello)))
           (error_body "Telegram API error (400): Bad Request: chat not found")).
  reflexivity.
Defined.

Lemma non_object_body_never_forwarded_witness :
  trace (handle Sample.repr Sample.net_down (Some "123:ABC") SendMessage
           (Returns (JStr "chat_id and text"))) = []
  ∧ ((∃ m, result (handle Sample.repr Sample.net_down (Some "123:ABC")
                     SendMessage (Returns (JStr "chat_id and text")))
           = Returns (error_body m, 400))
     ∨ (∃ e, result (handle Sample.repr Sample.net_down (Some "123:ABC")
                       SendMessage (Returns (JStr "chat_id and text")))
             = Raises e
          ∧ (exn_class_of e = TypeError ∨ exn_class_of e = AttributeError))).
Proof.
  apply (non_object_body_never_forwarded Sample.repr Sample.net_down
           (Some "123:ABC") SendMessage (JStr "chat_id and text")).
  reflexivity.
Defined.

Lemma extra_fields_pass_through_witness :
  ∃ logs,
    trace (handle Sample.repr Sample.net_down None SendMessage
             (Returns (JObj (<["parse_mode" := JStr "HTML"]> Sample.hello)))) =
      Forward "sendMessage" (JStr "123:ABC")
        (<["parse_mode" := JStr "HTML"]> Sample.hello_no_token)
        :: Post "https://api.telegram.org/bot123:ABC/sendMessage"
             (<["parse_mode" := JStr "HTML"]> Sample.hello_no_token) 10
        :: logs.
Proof.
  destruct (extra_fields_pass_through Sample.repr Sample.net_down None
              SendMessage Sample.hello (JStr "123:ABC") "parse_mode"
              (JStr "HTML")) as [_ Htrace];
    [by repeat split|discriminate|].
  exact Htrace.
Defined.

Lemma forwarder_returns_only_parsed_success_witness :
  ∃ r,
    Sample.net_reply Sample.reply_ok
      (api_url Sample.repr (JStr "123:ABC") "sendMessage")
      Sample.hello_no_token 10 = Returns r
    ∧ is_error_status (status_code r) = false
    ∧ json r = Returns Sample.sent
    ∧ trace (send_telegram_request Sample.repr
               (Sample.net_reply Sample.reply_ok) "sendMessage"
               (JStr "123:ABC") Sample.hello_no_token) =
        [Forward "sendMessage" (JStr "123:ABC") Sample.hello_no_token;
         Post (api_url Sample.repr (JStr "123:ABC") "sendMessage")
           Sample.hello_no_token 10].
Proof.
  apply (forwarder_returns_only_parsed_success Sample.repr
           (Sample.net_reply Sample.reply_ok) "sendMessage" (JStr "123:ABC")
           Sample.hello_no_token Sample.sent).
  reflexivity.
Defined.

Lemma validation_ignores_values_witness :
  (∃ tok, dispatches (Some "123:ABC") SendMessage Sample.hello_html tok
          ∧ dispatches (Some "123:ABC") SendMessage
              (<["chat_id" := JNull]> Sample.hello_html) tok)
  ∨ (trace (handle Sample.repr Sample.net_down (Some "123:ABC") SendMessage
              (Returns (JObj Sample.hello_html))) = []
     ∧ handle Sample.repr Sample.net_down (Some "123:ABC") SendMessage
         (Returns (JObj (<["chat_id" := JNull]> Sample.hello_html)))
       = handle Sample.repr Sample.net_down (Some "123:ABC") SendMessage
           (Returns (JObj Sample.hello_html))).
Proof.
  apply (validation_ignores_values Sample.repr Sample.net_down
           (Some "123:ABC") SendMessage Sample.hello_html
           (<["chat_id" := JNull]> Sample.hello_html)).
  - symmetry. apply dom_insert_lookup_L. by eexists.
  - reflexivity.
Defined.

Lemma operations_have_distinct_urls_witness :
  api_url Sample.repr (JStr "123:ABC") "sendMessage"
  ≠ api_url Sample.repr (JStr "123:ABC") "sendPhoto".
Proof.
  apply (operations_have_distinct_urls Sample.repr (JStr "123:ABC")
           SendMessage SendPhoto).
  discriminate.
Defined.
